(** * backend/agent-python/agent.py — the agent endpoint service

    A shallow embedding of the three FastAPI handlers of [agent.py]
    ([message_endpoint], [set_fact], [get_fact]) and of the module-level
    start-up code, over an explicit model of the Python values they
    manipulate, of the Redis list store and of the outbound HTTP calls. *)

From Stdlib Require Import Ascii QArith Qcanon.
From stdpp Require Import gmap strings list fin_maps pretty countable.

Set Warnings "-register-all".
Local Open Scope string_scope.
Local Open Scope Z_scope.

(** ** Python values

    Everything the handlers touch is a value produced by [json.loads] (or
    built from such values): [None], [bool], [int], [float], [str], [list]
    and [dict].  A [dict] keeps its insertion order and is an association
    list; a float is finite and is the (canonical) rational it denotes: the
    [inf] and [nan] that [json.loads] yields for [1e400], [Infinity] or [NaN]
    are not values of this model. *)

Module Py.

Inductive json : Type :=
  | JNull
  | JBool (b : bool)
  | JInt (n : Z)
  | JFloat (x : Qc)
  | JStr (s : string)
  | JArr (items : list json)
  | JObj (fields : list (string * json)).

(** [type(v).__name__] *)
Definition type_name (v : json) : string :=
  match v with
  | JNull => "NoneType"
  | JBool _ => "bool"
  | JInt _ => "int"
  | JFloat _ => "float"
  | JStr _ => "str"
  | JArr _ => "list"
  | JObj _ => "dict"
  end.

(** [bool(v)]: what [not v] and [if v] test. *)
Definition truthy (v : json) : bool :=
  match v with
  | JNull => false
  | JBool b => b
  | JInt n => negb (Z.eqb n 0)
  | JFloat x => negb (Z.eqb (Qnum x) 0)
  | JStr s => negb (String.eqb s "")
  | JArr items => negb (Nat.eqb (length items) 0%nat)
  | JObj fields => negb (Nat.eqb (length fields) 0%nat)
  end.

(** [v is None] *)
Definition is_none (v : json) : bool :=
  match v with JNull => true | _ => false end.

(** Lookup of a key in a [dict]. *)
Fixpoint lookup_field (k : string) (fields : list (string * json)) : option json :=
  match fields with
  | [] => None
  | (k', v) :: rest => if String.eqb k k' then Some v else lookup_field k rest
  end.


(** Exceptions: the class and the text [str(e)] gives. *)
Record exn : Type := Exn { exn_class : string; exn_str : string }.

Inductive outcome (A : Type) : Type :=
  | Return (a : A)
  | Raise (e : exn).
Arguments Return {A} a.
Arguments Raise {A} e.

#[global] Instance outcome_ret : MRet outcome := λ A a, Return a.
#[global] Instance outcome_bind : MBind outcome := λ A B k o,
  match o with
  | Return a => k a
  | Raise e => Raise e
  end.

(** A list comprehension [[f(x) for x in xs]]: the elements are computed in
    order and the first exception ends the evaluation. *)
Fixpoint comprehension {A B : Type} (f : A → outcome B) (xs : list A)
  : outcome (list B) :=
  match xs with
  | [] => Return []
  | x :: rest =>
      match f x with
      | Return y =>
          match comprehension f rest with
          | Return ys => Return (y :: ys)
          | Raise e => Raise e
          end
      | Raise e => Raise e
      end
  end.

Definition AttributeError (v : json) (attr : string) : exn :=
  Exn "AttributeError"
      ("'" ++ type_name v ++ "' object has no attribute '" ++ attr ++ "'").

Definition not_iterable (v : json) : exn :=
  Exn "TypeError" ("'" ++ type_name v ++ "' object is not iterable").

Definition join_item_error (i : nat) (v : json) : exn :=
  Exn "TypeError"
      ("sequence item " ++ pretty i ++ ": expected str instance, "
         ++ type_name v ++ " found").

(** [d.get(k, dflt)]; an [AttributeError] when [d] is not a [dict]. *)
Definition get (d : json) (k : string) (dflt : json) : outcome json :=
  match d with
  | JObj fields => Return (default dflt (lookup_field k fields))
  | _ => Raise (AttributeError d "get")
  end.

(** [for t in v]: the items of a list, the characters of a string, the keys
    of a dict; anything else is not iterable. *)
Definition iter (v : json) : outcome (list json) :=
  match v with
  | JArr items => Return items
  | JStr s => Return (map (λ c, JStr (String c "")) (String.list_ascii_of_string s))
  | JObj fields => Return (map (λ kv, JStr (fst kv)) fields)
  | _ => Raise (not_iterable v)
  end.

(** [sep.join(items)], the items numbered from [i]. *)
Fixpoint join_from (i : nat) (sep : string) (items : list json) : outcome string :=
  match items with
  | [] => Return ""
  | JStr s :: rest =>
      match rest with
      | [] => Return s
      | _ :: _ =>
          match join_from (S i) sep rest with
          | Return t => Return (s ++ sep ++ t)
          | Raise e => Raise e
          end
      end
  | v :: _ => Raise (join_item_error i v)
  end.

Definition join (sep : string) (items : list json) : outcome string :=
  join_from 0%nat sep items.

(** [int(x)] of a float: truncation towards zero. *)
Definition int (x : Qc) : Z := Z.quot (Qnum x) (Zpos (Qden x)).

(** The newline character of ["\n"]. *)
Definition nl : string := String (Ascii.ascii_of_nat 10%nat) "".

(** The library functions [agent.py] calls and whose code is not its own:
    [json.dumps] and [json.loads] (a value that was dumped loads back),
    [repr] for the text of a value that is not a [str], and
    [base64.b64decode(s).decode('utf-8')]. *)
Class PyLib : Type := {
  dumps : json → string;
  loads : string → outcome json;
  loads_dumps : ∀ v, loads (dumps v) = Return v;
  repr : json → string;
  b64decode_utf8 : string → outcome string
}.

(** [str(v)], which an f-string applies to each interpolated value. *)
Definition str `{PyLib} (v : json) : string :=
  match v with
  | JStr s => s
  | _ => repr v
  end.

End Py.

Import Py.

(** ** The Redis list store

    [r = redis.Redis.from_url(REDIS_URL, decode_responses=True)]: a map from
    keys to lists of strings, the head of a list being its most recent
    [LPUSH]. *)

Module Redis.

(** [LRANGE] on the list stored at a key: [start] and [stop] are inclusive,
    a negative index counts from the end, and indexes out of range are
    clamped. *)
Definition range (l : list string) (start stop : Z) : list string :=
  let llen := Z.of_nat (length l) in
  let start := if start <? 0 then llen + start else start in
  let stop := if stop <? 0 then llen + stop else stop in
  let start := if start <? 0 then 0 else start in
  if (stop <? start) || (llen <=? start) then []
  else
    let stop := if llen <=? stop then llen - 1 else stop in
    take (Z.to_nat (stop - start + 1)) (drop (Z.to_nat start) l).

(** The list at a key; a key that was never pushed to holds the empty list. *)
Definition list_at (key : string) (db : gmap string (list string)) : list string :=
  default [] (db !! key).

Definition lpush (key value : string) (db : gmap string (list string))
  : gmap string (list string) :=
  <[key := value :: list_at key db]> db.

Definition lrange (key : string) (start stop : Z) (db : gmap string (list string))
  : list string :=
  range (list_at key db) start stop.

End Redis.

(** ** Outbound HTTP: the [requests] calls *)

Inductive http_request : Type :=
  | HttpPost (url : string) (body : json)
  | HttpGet (url : string).

(** What the handlers use of a [requests.Response]: [resp.json()] is the
    decoded body, or the exception decoding it raises. *)
Record response : Type := Response {
  status_code : Z;
  reason : string;
  url : string;
  json_body : outcome json
}.

(** [resp.raise_for_status()] of [requests.models.Response]: an [HTTPError]
    for a status from 400 to 599, nothing for any other status. *)
Definition raise_for_status (resp : response) : outcome unit :=
  if (400 <=? status_code resp) && (status_code resp <? 500) then
    Raise (Exn "HTTPError"
             (pretty (status_code resp) ++ " Client Error: " ++ reason resp
                ++ " for url: " ++ url resp))
  else if (500 <=? status_code resp) && (status_code resp <? 600) then
    Raise (Exn "HTTPError"
             (pretty (status_code resp) ++ " Server Error: " ++ reason resp
                ++ " for url: " ++ url resp))
  else Return ().

(** ** The process

    The module globals bound when [agent.py] is imported, and the state a
    request can read or change: those globals, the Redis store, the number
    of readings of the wall clock taken so far, and the HTTP requests sent
    to the backend so far (most recent last). *)

Record globals : Type := Globals {
  AGENT_ID : string;
  AGENT_CONFIG : json;
  agent_context : json;
  agent_tools : json
}.

Record world : Type := World {
  module : globals;
  redis : gmap string (list string);
  ticks : nat;
  sent : list http_request
}.

(** A handler: it changes the world and returns a value or raises. The
    world reached when an exception is raised is kept: a push that happened
    before the exception stays in the store. *)
Definition M (A : Type) : Type := world → outcome A * world.

#[global] Instance M_ret : MRet M := λ A a w, (Return a, w).
#[global] Instance M_bind : MBind M := λ A B k m w,
  match m w with
  | (Return a, w') => k a w'
  | (Raise e, w') => (Raise e, w')
  end.

(** An expression that raises or has a value, without any effect. *)
Definition pure {A : Type} (o : outcome A) : M A := λ w, (o, w).

(** [try: body except Exception as e: handler(e)] *)
Definition try_except {A : Type} (body : M A) (handler : exn → M A) : M A := λ w,
  match body w with
  | (Return a, w') => (Return a, w')
  | (Raise e, w') => handler e w'
  end.

(** A handler whose every run relates the world it starts in to the world it
    ends in, whether it returns or raises. *)
Definition preserves {A : Type} (R : relation world) (m : M A) : Prop :=
  ∀ w, R w (snd (m w)).

(** The module globals are the same in both worlds. *)
Definition same_module (w w' : world) : Prop := module w' = module w.

(** Every list of the later store ends with the list the earlier store holds
    at the same key: entries are added in front, none is removed or changed. *)
Definition log_grows (w w' : world) : Prop :=
  ∀ key, Redis.list_at key (redis w) `suffix_of` Redis.list_at key (redis w').

Definition read_module : M globals := λ w, (Return (module w), w).

Definition lpush (key value : string) : M unit := λ w,
  (Return (),
   World (module w) (Redis.lpush key value (redis w)) (ticks w) (sent w)).

Definition lrange (key : string) (start stop : Z) : M (list string) := λ w,
  (Return (Redis.lrange key start stop (redis w)), w).

(** A FastAPI [Request]: [await req.json()] is the decoded body, or the
    exception decoding it raises. *)
Record Request : Type := { req_json : outcome json }.

Section Service.

Context `{PyLib}.

(** [os.environ] of the process. *)
Variable environ : gmap string string.

(** The successive values [time.time()] returns, in the order of the calls. *)
Variable wall : nat → Qc.

(** The backend and the network in front of it: given the requests already
    sent and a new one, a response, or the exception [requests] raises
    (connection refused, invalid URL, ...). *)
Variable backend : list http_request → http_request → outcome response.

Definition time_time : M Qc := λ w,
  (Return (wall (ticks w)),
   World (module w) (redis w) (S (ticks w)) (sent w)).

(** The world once a request has been sent. *)
Definition after_send (w : world) (rq : http_request) : world :=
  World (module w) (redis w) (ticks w) (sent w ++ [rq]).

Definition send (rq : http_request) : M response := λ w,
  (backend (sent w) rq, after_send w rq).

Definition requests_post (url : string) (body : json) : M response :=
  send (HttpPost url body).

Definition requests_get (url : string) : M response :=
  send (HttpGet url).

(** [os.environ.get(name, dflt)] *)
Definition environ_get (name dflt : string) : string :=
  default dflt (environ !! name).

(** *** Module start-up (lines 12-19)

    [startup] is the binding of the globals the handlers read (lines 12, 13,
    18 and 19); [import_module] is the whole of lines 12-19, with the
    creation of the Redis client of lines 14-16 between the two. *)

Definition load_AGENT_CONFIG : outcome json :=
  match environ !! "AGENT_CONFIG" with
  | Some s =>
      if truthy (JStr s) then
        text ← b64decode_utf8 (environ_get "AGENT_CONFIG" ""); loads text
      else Return (JObj [])
  | None => Return (JObj [])
  end.

Definition startup : outcome globals :=
  let agent_id := environ_get "AGENT_ID" "unknown" in
  config ← load_AGENT_CONFIG;
  context ← get config "systemPrompt" (JStr "");
  tools ← get config "tools" (JArr []);
  Return (Globals agent_id config context tools).

(** [redis.Redis.from_url(url, decode_responses=True)] builds the client
    without connecting; it raises on a URL it cannot parse. *)
Variable from_url : string → outcome unit.

Definition REDIS_URL : string := environ_get "REDIS_URL" "redis://localhost:6379".

Definition import_module : outcome globals :=
  let agent_id := environ_get "AGENT_ID" "unknown" in
  config ← load_AGENT_CONFIG;
  _ ← from_url REDIS_URL;
  context ← get config "systemPrompt" (JStr "");
  tools ← get config "tools" (JArr []);
  Return (Globals agent_id config context tools).

(** *** POST /message (lines 21-47) *)

Definition messages_key (g : globals) : string :=
  "agent:" ++ AGENT_ID g ++ ":messages".

(** Every entry of every list of the store is a text [json.loads] accepts;
    and the relation of a world in which that holds to a later one in which
    it still does. *)
Definition decodable (w : world) : Prop :=
  ∀ key, Forall (λ entry, ∃ v, loads entry = Return v)
           (Redis.list_at key (redis w)).

Definition stays_decodable (w w' : world) : Prop := decodable w → decodable w'.

Definition user_record (message : json) (now : Qc) : json :=
  JObj [("role", JStr "user"); ("content", message);
        ("timestamp", JInt (int now))].

(** [[t.get('name', '') for t in agent_tools]] *)
Definition tool_names (tools : json) : outcome (list json) :=
  items ← iter tools;
  comprehension (λ t, get t "name" (JStr "")) items.

(** The f-string of line 39. *)
Definition response_content (g : globals) (message : json) : outcome string :=
  names ← tool_names (agent_tools g);
  joined ← join ", " names;
  Return ("Echo: " ++ str message ++ nl ++ "Context: " ++ str (agent_context g)
            ++ nl ++ "Tools: " ++ joined).

(** The world once the user record of a call has been pushed: one reading
    of the clock, one push. *)
Definition after_user_push (w : world) (message : json) : world :=
  World (module w)
    (Redis.lpush (messages_key (module w))
       (dumps (user_record message (wall (ticks w)))) (redis w))
    (S (ticks w)) (sent w).

Definition agent_record (content : string) (now : Qc) (history : list json) : json :=
  JObj [("role", JStr "agent"); ("content", JStr content);
        ("timestamp", JInt (int now)); ("memory", JArr history)].

Definition message_endpoint (req : Request) : M json :=
  data ← pure (req_json req);
  message ← pure (get data "message" JNull);
  if negb (truthy message) then
    mret (JObj [("error", JStr "Missing message")])
  else
    g ← read_module;
    t_user ← time_time;
    _ ← lpush (messages_key g) (dumps (user_record message t_user));
    raw ← lrange (messages_key g) 0 9;
    history ← pure (comprehension loads raw);
    content ← pure (response_content g message);
    t_agent ← time_time;
    let response := agent_record content t_agent history in
    _ ← lpush (messages_key g) (dumps response);
    mret response.

(** *** POST /fact/set (lines 49-66) *)

Definition backend_url : string :=
  environ_get "BACKEND_URL" "http://host.docker.internal:4000".

Definition set_fact (req : Request) : M json :=
  data ← pure (req_json req);
  key ← pure (get data "key" JNull);
  value ← pure (get data "value" JNull);
  if negb (truthy key) || is_none value then
    mret (JObj [("error", JStr "Missing key or value")])
  else
    try_except
      (g ← read_module;
       resp ← requests_post (backend_url ++ "/api/longterm/set")
                (JObj [("agentId", JStr (AGENT_ID g)); ("key", key);
                       ("value", value)]);
       _ ← pure (raise_for_status resp);
       mret (JObj [("status", JStr "ok")]))
      (λ e, mret (JObj [("error", JStr (exn_str e))])).

(** *** GET /fact/get/{key} (lines 68-77) *)

Definition get_fact (key : string) : M json :=
  try_except
    (g ← read_module;
     resp ← requests_get (backend_url ++ "/api/longterm/get/" ++ AGENT_ID g
                            ++ "/" ++ key);
     _ ← pure (raise_for_status resp);
     data ← pure (json_body resp);
     value ← pure (get data "value" JNull);
     mret (JObj [("value", value)]))
    (λ e, mret (JObj [("error", JStr (exn_str e))])).

(** The request [set_fact] sends for a key and a value, and the request
    [get_fact] sends for a key. *)
Definition set_request (w : world) (key value : json) : http_request :=
  HttpPost (backend_url ++ "/api/longterm/set")
    (JObj [("agentId", JStr (AGENT_ID (module w))); ("key", key); ("value", value)]).

Definition get_request (w : world) (key : string) : http_request :=
  HttpGet (backend_url ++ "/api/longterm/get/" ++ AGENT_ID (module w)
             ++ "/" ++ key).

(** *** The server: one handler per route *)

Inductive call : Type :=
  | PostMessage (req : Request)
  | PostFactSet (req : Request)
  | GetFactGet (key : string).

Definition serve (c : call) : M json :=
  match c with
  | PostMessage req => message_endpoint req
  | PostFactSet req => set_fact req
  | GetFactGet key => get_fact key
  end.

(** The world after a sequence of calls; a call that raises is answered
    with a server error and the process goes on. *)
Fixpoint serve_all (cs : list call) (w : world) : world :=
  match cs with
  | [] => w
  | c :: rest => serve_all rest (snd (serve c w))
  end.

End Service.

(** The shape of the configured tool list: a list of tool descriptors,
    each a [dict] whose [name], when it has one, is a string. *)
Definition is_tool_descriptor (t : json) : bool :=
  match t with
  | JObj fields =>
      match lookup_field "name" fields with
      | Some (JStr _) | None => true
      | Some _ => false
      end
  | _ => false
  end.

(** [t.get('name', '')] of a tool descriptor whose name is a string. *)
Definition tool_name (t : json) : string :=
  match t with
  | JObj fields =>
      match lookup_field "name" fields with
      | Some (JStr s) => s
      | _ => ""
      end
  | _ => ""
  end.

Definition well_typed_tools (tools : json) : bool :=
  match tools with
  | JArr items => forallb is_tool_descriptor items
  | _ => false
  end.

(** ** A library instance for concrete runs

    An in-memory stand-in for the library functions of [PyLib], used where
    the handlers are run on concrete requests: values are serialised
    through their tree of constructors, written in binary digits. *)

Module TestLib.

Definition leaf : Type := bool + Z + Qc + string.

Fixpoint to_tree (v : json) : gen_tree leaf :=
  match v with
  | JNull => GenNode 0 []
  | JBool b => GenLeaf (inl (inl (inl b)))
  | JInt n => GenLeaf (inl (inl (inr n)))
  | JFloat x => GenLeaf (inl (inr x))
  | JStr s => GenLeaf (inr s)
  | JArr items => GenNode 1 (map to_tree items)
  | JObj fields =>
      GenNode 2 (map (λ kv, match kv with
                            | (k, x) => GenNode 3 [GenLeaf (inr k); to_tree x]
                            end) fields)
  end.

Fixpoint of_tree (t : gen_tree leaf) : option json :=
  match t with
  | GenLeaf (inl (inl (inl b))) => Some (JBool b)
  | GenLeaf (inl (inl (inr n))) => Some (JInt n)
  | GenLeaf (inl (inr x)) => Some (JFloat x)
  | GenLeaf (inr s) => Some (JStr s)
  | GenNode 0 _ => Some JNull
  | GenNode 1 ts => JArr <$> mapM of_tree ts
  | GenNode 2 ts =>
      JObj <$> mapM (λ t, match t with
                          | GenNode 3 [GenLeaf (inr k); t'] => pair k <$> of_tree t'
                          | _ => None
                          end) ts
  | GenNode _ _ => None
  end.

Fixpoint digits (p : positive) : string :=
  match p with
  | xH => ""
  | xO q => String "0"%char (digits q)
  | xI q => String "1"%char (digits q)
  end.

Fixpoint of_digits (s : string) : option positive :=
  match s with
  | "" => Some xH
  | String c rest =>
      if Ascii.eqb c "0"%char then xO <$> of_digits rest
      else if Ascii.eqb c "1"%char then xI <$> of_digits rest
      else None
  end.

Definition dumps (v : json) : string := digits (encode (to_tree v)).

Definition loads (s : string) : outcome json :=
  match of_digits s with
  | Some p =>
      match decode p with
      | Some t =>
          match of_tree t with
          | Some v => Return v
          | None => Raise (Exn "JSONDecodeError" "Expecting value")
          end
      | None => Raise (Exn "JSONDecodeError" "Expecting value")
      end
  | None => Raise (Exn "JSONDecodeError" "Expecting value")
  end.

End TestLib.

(** ** Concrete runs

    A process without configuration and one with the configuration of the
    echo scenario, a clock that advances by one and a half seconds at each
    reading, a few requests, and backends that answer with a given status
    or cannot be reached. *)

Module Example.

Definition unset : gmap string string := ∅.

Definition config : json :=
  JObj [("systemPrompt", JStr "Be helpful");
        ("tools", JArr [JObj [("name", JStr "search")]])].

Definition configured : gmap string string :=
  {[ "AGENT_CONFIG" := TestLib.dumps config ]}.

Definition wall (i : nat) : Qc := Q2Qc (Qmake (3401 + 3 * Z.of_nat i) 2).

Definition idle : world :=
  World (Globals "unknown" (JObj []) (JStr "") (JArr [])) ∅ 0 [].

Definition helpful : world :=
  World (Globals "unknown" config (JStr "Be helpful")
           (JArr [JObj [("name", JStr "search")]])) ∅ 0 [].

(** A process whose configured tools are names instead of descriptors, and
    the globals of a second agent on the same store. *)
Definition misconfigured : world :=
  World (Globals "unknown" (JObj [("tools", JArr [JStr "search"])]) (JStr "")
           (JArr [JStr "search"])) ∅ 0 [].

Definition neighbour : globals := Globals "other" (JObj []) (JStr "") (JArr []).

(** A process with the scenario's configuration and twelve earlier records
    in its log, and one whose log starts with a text that is not JSON. *)
Definition earlier_record (i : Z) : json :=
  JObj [("role", JStr "user"); ("content", JStr "earlier"); ("timestamp", JInt i)].

Definition chatty : world :=
  World (Globals "unknown" config (JStr "Be helpful")
           (JArr [JObj [("name", JStr "search")]]))
    {[ "agent:unknown:messages" :=
         map (λ i, TestLib.dumps (earlier_record i))
           [12; 11; 10; 9; 8; 7; 6; 5; 4; 3; 2; 1] ]}
    0 [].


(** A Redis URL parser that accepts the three schemes of [redis-py]. *)
Definition from_url (url : string) : outcome unit :=
  if String.prefix "redis://" url || String.prefix "rediss://" url
     || String.prefix "unix://" url
  then Return ()
  else Raise (Exn "ValueError"
                "Redis URL must specify one of the following schemes (redis://, rediss://, unix://)").

Definition body (fields : list (string * json)) : Request :=
  {| req_json := Return (JObj fields) |}.

Definition hi : Request := body [("message", JStr "hi")].

Definition answers (status : Z) (text : string) (decoded : outcome json)
  : list http_request → http_request → outcome response :=
  λ _ rq,
    Return (Response status text
              match rq with HttpPost u _ => u | HttpGet u => u end
              decoded).

Definition unreachable : list http_request → http_request → outcome response :=
  λ _ _, Raise (Exn "ConnectionError" "Connection refused").

End Example.

(** ** Facts about the value model *)

Lemma int_mono (x y : Qc) : (x <= y)%Qc → int x ≤ int y.
Proof.
  unfold Qcle, Qle, int. intros Hxy.
  rewrite <- (Z.quot_mul_cancel_r (Qnum x) (Zpos (Qden x)) (Zpos (Qden y)))
    by discriminate.
  rewrite <- (Z.quot_mul_cancel_r (Qnum y) (Zpos (Qden y)) (Zpos (Qden x)))
    by discriminate.
  rewrite (Z.mul_comm (Zpos (Qden y)) (Zpos (Qden x))).
  apply Z.quot_le_mono; [lia | exact Hxy].
Qed.

Lemma truthy_nonempty_str (s : string) : s ≠ "" → truthy (JStr s) = true.
Proof.
  intros Hs. simpl. destruct (String.eqb_spec s ""); [contradiction | reflexivity].
Qed.




Lemma comprehension_length {A B : Type} (f : A → outcome B) xs ys :
  comprehension f xs = Return ys → length ys = length xs.
Proof.
  revert ys. induction xs as [|x xs IH]; simpl; intros ys Hc.
  - injection Hc as <-. reflexivity.
  - destruct (f x) as [y|e]; [|discriminate].
    destruct (comprehension f xs) as [ys'|e]; [|discriminate].
    injection Hc as <-. simpl. f_equal. apply IH. reflexivity.
Qed.

Lemma comprehension_total {A B : Type} (f : A → outcome B) xs :
  Forall (λ x, ∃ y, f x = Return y) xs → ∃ ys, comprehension f xs = Return ys.
Proof.
  induction 1 as [|x xs [y Hy] _ [ys Hys]]; simpl.
  - eexists. reflexivity.
  - rewrite Hy, Hys. eexists. reflexivity.
Qed.

(** ** Facts about the store *)

Lemma range_0_9 (l : list string) : Redis.range l 0 9 = take 10 l.
Proof.
  unfold Redis.range. simpl.
  destruct (Z.leb_spec (Z.of_nat (length l)) 0) as [Hz | Hpos].
  - destruct l; [reflexivity | simpl in Hz; lia].
  - rewrite drop_0. destruct (Z.leb_spec (Z.of_nat (length l)) 9) as [Hle | Hgt].
    + rewrite !take_ge by lia. reflexivity.
    + reflexivity.
Qed.

Lemma lrange_0_9 (key : string) (db : gmap string (list string)) :
  Redis.lrange key 0 9 db = take 10 (Redis.list_at key db).
Proof. apply range_0_9. Qed.

Lemma list_at_lpush (key value : string) (db : gmap string (list string)) :
  Redis.list_at key (Redis.lpush key value db) = value :: Redis.list_at key db.
Proof. unfold Redis.list_at at 1, Redis.lpush. rewrite lookup_insert_eq. reflexivity. Qed.

Lemma lookup_lpush_ne (key key' value : string) (db : gmap string (list string)) :
  key ≠ key' → Redis.lpush key value db !! key' = db !! key'.
Proof. intros Hne. unfold Redis.lpush. apply lookup_insert_ne. exact Hne. Qed.

(** ** The library instance is an instance *)

Lemma json_nested_ind (P : json → Prop) :
  P JNull → (∀ b, P (JBool b)) → (∀ n, P (JInt n)) → (∀ x, P (JFloat x)) →
  (∀ s, P (JStr s)) →
  (∀ items, Forall P items → P (JArr items)) →
  (∀ fields, Forall (λ kv, P (snd kv)) fields → P (JObj fields)) →
  ∀ v, P v.
Proof.
  intros HNull HBool HInt HFloat HStr HArr HObj.
  fix IH 1.
  intros [| b | n | x | s | items | fields];
    [exact HNull | apply HBool | apply HInt | apply HFloat | apply HStr | |].
  - apply HArr. induction items as [|y items IHitems]; constructor.
    + apply IH.
    + exact IHitems.
  - apply HObj. induction fields as [|[k y] fields IHfields]; constructor.
    + apply IH.
    + exact IHfields.
Qed.

Lemma of_to_tree (v : json) : TestLib.of_tree (TestLib.to_tree v) = Some v.
Proof.
  induction v as [| b | n | x | s | items IH | fields IH] using json_nested_ind;
    try reflexivity.
  - simpl. induction IH as [|y items Hy _ IHitems]; [reflexivity |].
    simpl. rewrite Hy. simpl.
    destruct (mapM TestLib.of_tree (map TestLib.to_tree items)) as [ys|];
      [|discriminate].
    simpl in *. congruence.
  - simpl. induction IH as [|[k y] fields Hy _ IHfields]; [reflexivity |].
    simpl in *. rewrite Hy. simpl.
    match goal with
    | |- context [mapM ?f ?l] => destruct (mapM f l) as [ys|]; [|discriminate]
    end.
    simpl in *. congruence.
Qed.

Lemma of_digits_digits (p : positive) : TestLib.of_digits (TestLib.digits p) = Some p.
Proof. induction p as [q IH | q IH |]; simpl; rewrite ?IH; reflexivity. Qed.

Lemma test_loads_dumps (v : json) : TestLib.loads (TestLib.dumps v) = Return v.
Proof.
  unfold TestLib.loads, TestLib.dumps.
  rewrite of_digits_digits, decode_encode, of_to_tree. reflexivity.
Qed.

#[local] Instance test_lib : PyLib := {|
  dumps := TestLib.dumps;
  loads := TestLib.loads;
  loads_dumps := test_loads_dumps;
  repr := TestLib.dumps;
  b64decode_utf8 := λ s, Return s
|}.

(** ** POST /message: what one call does *)

Section MessageEndpoint.

Context `{PyLib}.
Variable wall : nat → Qc.

Lemma message_endpoint_rejects (req : Request) (d : list (string * json)) (w : world) :
  req_json req = Return (JObj d) →
  truthy (default JNull (lookup_field "message" d)) = false →
  message_endpoint wall req w = (Return (JObj [("error", JStr "Missing message")]), w).
Proof.
  intros Hbody Hfalsy. unfold message_endpoint, mbind, M_bind, pure.
  rewrite Hbody. simpl. rewrite Hfalsy. reflexivity.
Qed.

Lemma message_endpoint_accepts (req : Request) (d : list (string * json))
    (message : json) (w : world) (history : list json) (content : string) :
  req_json req = Return (JObj d) →
  lookup_field "message" d = Some message →
  truthy message = true →
  comprehension loads
    (Redis.lrange (messages_key (module w)) 0 9
       (Redis.lpush (messages_key (module w))
          (dumps (user_record message (wall (ticks w)))) (redis w)))
    = Return history →
  response_content (module w) message = Return content →
  message_endpoint wall req w =
    (Return (agent_record content (wall (S (ticks w))) history),
     World (module w)
       (Redis.lpush (messages_key (module w))
          (dumps (agent_record content (wall (S (ticks w))) history))
          (Redis.lpush (messages_key (module w))
             (dumps (user_record message (wall (ticks w)))) (redis w)))
       (S (S (ticks w))) (sent w)).
Proof.
  intros Hbody Hmsg Htruthy Hhist Hcontent.
  unfold message_endpoint, mbind, M_bind, pure.
  rewrite Hbody. simpl. rewrite Hmsg. simpl. rewrite Htruthy. simpl.
  unfold lrange. simpl. rewrite Hhist, Hcontent. reflexivity.
Qed.

(** The history read after the user push: the user record, then what the
    nine most recent earlier entries decode to. *)
Lemma history_after_user_push (key : string) (user : json)
    (db : gmap string (list string)) (earlier : list json) :
  comprehension loads (take 9 (Redis.list_at key db)) = Return earlier →
  comprehension loads (Redis.lrange key 0 9 (Redis.lpush key (dumps user) db))
    = Return (user :: earlier).
Proof.
  intros Hearlier. rewrite lrange_0_9, list_at_lpush.
  change (take 10 (dumps user :: Redis.list_at key db))
    with (dumps user :: take 9 (Redis.list_at key db)).
  simpl. rewrite loads_dumps, Hearlier. reflexivity.
Qed.

Lemma join_from_strings (i : nat) (sep : string) (names : list json) :
  Forall (λ v, ∃ s, v = JStr s) names → ∃ text, join_from i sep names = Return text.
Proof.
  intros Hnames. revert i.
  induction Hnames as [|v names [s ->] Hnames IH]; intros i; simpl.
  - eexists. reflexivity.
  - destruct names as [|v' names']; [eexists; reflexivity |].
    destruct (IH (S i)) as [t Ht]. rewrite Ht. eexists. reflexivity.
Qed.

Lemma tool_names_well_typed (tools : json) :
  well_typed_tools tools = true →
  ∃ names, tool_names tools = Return names ∧ Forall (λ v, ∃ s, v = JStr s) names.
Proof.
  destruct tools as [| | | | | items |]; try discriminate. simpl.
  unfold tool_names. simpl. induction items as [|t items IH]; simpl; intros Hwt.
  - eexists. split; [reflexivity | constructor].
  - apply andb_true_iff in Hwt as [Ht Hitems].
    destruct (IH Hitems) as (names & Hnames & Hstr). rewrite Hnames.
    destruct t as [| | | | | |fields]; try discriminate. simpl in *.
    destruct (lookup_field "name" fields) as [[| | | |s| |]|]; try discriminate;
      simpl; eexists; (split; [reflexivity |]); constructor; eauto.
Qed.

Lemma response_content_well_typed (g : globals) (message : json) :
  well_typed_tools (agent_tools g) = true →
  ∃ content, response_content g message = Return content.
Proof.
  intros Hwt. destruct (tool_names_well_typed _ Hwt) as (names & Hnames & Hstr).
  destruct (join_from_strings 0 ", " names Hstr) as [text Htext].
  unfold response_content, join. rewrite Hnames. simpl. rewrite Htext. simpl.
  eexists. reflexivity.
Qed.

End MessageEndpoint.

(** ** Properties of POST /message *)

Section MessageClaims.

Context `{PyLib}.
Variable wall : nat → Qc.

(** A call with a truthy message, on a well-typed tool list and a log whose
    nine most recent entries decode, runs to its end: it pushes the user
    record, reads the history, pushes the agent record and returns it. *)
Lemma message_endpoint_run (req : Request) (d : list (string * json))
    (message : json) (w : world) :
  req_json req = Return (JObj d) →
  lookup_field "message" d = Some message →
  truthy message = true →
  well_typed_tools (agent_tools (module w)) = true →
  Forall (λ entry, ∃ v, loads entry = Return v)
    (take 9 (Redis.list_at (messages_key (module w)) (redis w))) →
  ∃ (content : string) (earlier : list json),
    comprehension loads (take 9 (Redis.list_at (messages_key (module w)) (redis w)))
      = Return earlier ∧
    response_content (module w) message = Return content ∧
    message_endpoint wall req w =
      (Return (agent_record content (wall (S (ticks w)))
                 (user_record message (wall (ticks w)) :: earlier)),
       World (module w)
         (Redis.lpush (messages_key (module w))
            (dumps (agent_record content (wall (S (ticks w)))
                      (user_record message (wall (ticks w)) :: earlier)))
            (Redis.lpush (messages_key (module w))
               (dumps (user_record message (wall (ticks w)))) (redis w)))
         (S (S (ticks w))) (sent w)).
Proof.
  intros Hbody Hmsg Htruthy Htools Hlog.
  destruct (comprehension_total _ _ Hlog) as [earlier Hearlier].
  destruct (response_content_well_typed (module w) message Htools)
    as [content Hcontent].
  exists content, earlier. split; [exact Hearlier |]. split; [exact Hcontent |].
  apply (message_endpoint_accepts wall req d message w _ content Hbody Hmsg Htruthy);
    [| exact Hcontent].
  apply history_after_user_push. exact Hearlier.
Qed.

(** C2. When the [message] field of the body is absent or is the empty
    string, [message_endpoint] returns exactly [{"error": "Missing message"}]
    and the world, the log included, is what it was. *)
Theorem missing_message_rejected (req : Request) (d : list (string * json))
    (w : world) :
  req_json req = Return (JObj d) →
  lookup_field "message" d = None ∨ lookup_field "message" d = Some (JStr "") →
  message_endpoint wall req w =
    (Return (JObj [("error", JStr "Missing message")]), w).
Proof.
  intros Hbody Hmsg. apply (message_endpoint_rejects wall req d w Hbody).
  destruct Hmsg as [-> | ->]; reflexivity.
Qed.

(** C8. With a wall clock that does not go back, the timestamp of the agent
    record of a call is at least the timestamp of the user record of that
    call: the two records a request writes carry non-decreasing timestamps
    in the order they are pushed. *)
Theorem timestamps_non_decreasing (req : Request) (d : list (string * json))
    (message : json) (w : world) :
  (∀ i j : nat, (i ≤ j)%nat → (wall i <= wall j)%Qc) →
  req_json req = Return (JObj d) →
  lookup_field "message" d = Some message →
  truthy message = true →
  well_typed_tools (agent_tools (module w)) = true →
  Forall (λ entry, ∃ v, loads entry = Return v)
    (take 9 (Redis.list_at (messages_key (module w)) (redis w))) →
  ∃ (content : string) (history : list json) (t_user t_agent : Z),
    let key := messages_key (module w) in
    let user := JObj [("role", JStr "user"); ("content", message);
                      ("timestamp", JInt t_user)] in
    let agent := JObj [("role", JStr "agent"); ("content", JStr content);
                       ("timestamp", JInt t_agent); ("memory", JArr history)] in
    fst (message_endpoint wall req w) = Return agent ∧
    Redis.list_at key (redis (snd (message_endpoint wall req w)))
      = dumps agent :: dumps user :: Redis.list_at key (redis w) ∧
    t_user ≤ t_agent.
Proof.
  intros Hclock Hbody Hmsg Htruthy Htools Hlog.
  destruct (message_endpoint_run req d message w Hbody Hmsg Htruthy Htools Hlog)
    as (content & earlier & _ & _ & Hrun).
  exists content, (user_record message (wall (ticks w)) :: earlier),
    (int (wall (ticks w))), (int (wall (S (ticks w)))).
  cbv zeta. rewrite Hrun. simpl fst. simpl snd. simpl redis.
  split; [reflexivity |]. split.
  - rewrite !list_at_lpush. reflexivity.
  - apply int_mono, Hclock. lia.
Qed.

End MessageClaims.

(** ** The fact routes: what one call does *)


Lemma raise_for_status_passes (resp : response) :
  status_code resp < 400 ∨ 600 ≤ status_code resp →
  raise_for_status resp = Return ().
Proof.
  intros Hstatus. unfold raise_for_status.
  destruct (Z.leb_spec 400 (status_code resp)),
    (Z.ltb_spec (status_code resp) 500),
    (Z.leb_spec 500 (status_code resp)),
    (Z.ltb_spec (status_code resp) 600); simpl; try reflexivity; lia.
Qed.


Section FactRoutes.

Variable environ : gmap string string.
Variable backend : list http_request → http_request → outcome response.

Lemma set_fact_rejects (req : Request) (d : list (string * json)) (w : world) :
  req_json req = Return (JObj d) →
  truthy (default JNull (lookup_field "key" d)) = false
  ∨ is_none (default JNull (lookup_field "value" d)) = true →
  set_fact environ backend req w =
    (Return (JObj [("error", JStr "Missing key or value")]), w).
Proof.
  intros Hbody Hbad. unfold set_fact, mbind, M_bind, pure.
  rewrite Hbody. simpl.
  destruct Hbad as [-> | ->]; [reflexivity |].
  rewrite orb_true_r. reflexivity.
Qed.

(** A request that passes validation is sent, and the answer decides the
    result. *)
Lemma set_fact_forwards (req : Request) (d : list (string * json))
    (key value : json) (w : world) :
  req_json req = Return (JObj d) →
  lookup_field "key" d = Some key → truthy key = true →
  lookup_field "value" d = Some value → is_none value = false →
  set_fact environ backend req w =
    (Return
       match backend (sent w) (set_request environ w key value) with
       | Return resp =>
           match raise_for_status resp with
           | Return _ => JObj [("status", JStr "ok")]
           | Raise e => JObj [("error", JStr (exn_str e))]
           end
       | Raise e => JObj [("error", JStr (exn_str e))]
       end,
     after_send w (set_request environ w key value)).
Proof.
  intros Hbody Hkey Htruthy Hvalue Hnone.
  unfold set_fact, mbind, M_bind, pure. rewrite Hbody. simpl.
  rewrite Hkey, Hvalue. simpl. rewrite Htruthy, Hnone. simpl.
  unfold try_except, requests_post, send, read_module, set_request, after_send.
  simpl.
  destruct (backend _ _) as [resp | e]; [| reflexivity].
  destruct (raise_for_status resp) as [[] | e]; reflexivity.
Qed.

Lemma get_fact_forwards (key : string) (w : world) :
  get_fact environ backend key w =
    (Return
       match backend (sent w) (get_request environ w key) with
       | Return resp =>
           match raise_for_status resp with
           | Return _ =>
               match json_body resp with
               | Return data =>
                   match get data "value" JNull with
                   | Return value => JObj [("value", value)]
                   | Raise e => JObj [("error", JStr (exn_str e))]
                   end
               | Raise e => JObj [("error", JStr (exn_str e))]
               end
           | Raise e => JObj [("error", JStr (exn_str e))]
           end
       | Raise e => JObj [("error", JStr (exn_str e))]
       end,
     after_send w (get_request environ w key)).
Proof.
  unfold get_fact, try_except, mbind, M_bind, pure, requests_get, send,
    read_module, get_request, after_send. simpl.
  destruct (backend _ _) as [resp | e]; [| reflexivity].
  destruct (raise_for_status resp) as [[] | e]; [| reflexivity].
  destruct (json_body resp) as [data | e]; [| reflexivity].
  destruct (get data "value" JNull) as [value | e]; reflexivity.
Qed.

(** C3. With a key that passes the key check, [set_fact] accepts the values
    [0], [false] and [""]: the request goes to the backend, with that key and
    that value. With the value [null], or no [value] field, it returns the
    validation error [{"error": "Missing key or value"}] and nothing is sent
    (the world is what it was). *)
Theorem set_fact_value_validation (req : Request) (d : list (string * json))
    (key : json) (w : world) :
  req_json req = Return (JObj d) →
  lookup_field "key" d = Some key →
  truthy key = true →
  (∀ value,
     lookup_field "value" d = Some value →
     value = JInt 0 ∨ value = JBool false ∨ value = JStr "" →
     sent (snd (set_fact environ backend req w))
       = (sent w ++ [set_request environ w key value])%list)
  ∧ (lookup_field "value" d = None ∨ lookup_field "value" d = Some JNull →
     set_fact environ backend req w =
       (Return (JObj [("error", JStr "Missing key or value")]), w)).
Proof.
  intros Hbody Hkey Htruthy. split.
  - intros value Hvalue Hfalsy.
    rewrite (set_fact_forwards req d key value w Hbody Hkey Htruthy Hvalue).
    + reflexivity.
    + destruct Hfalsy as [-> | [-> | ->]]; reflexivity.
  - intros Hmissing. apply (set_fact_rejects req d w Hbody). right.
    destruct Hmissing as [-> | ->]; reflexivity.
Qed.

(** C10. When the [key] field is present and is [""], [0] or [false],
    [set_fact] returns [{"error": "Missing key or value"}] and nothing is
    sent to the backend: the key check rejects a falsy key as it rejects an
    absent one. *)
Theorem falsy_key_rejected (req : Request) (d : list (string * json))
    (key : json) (w : world) :
  req_json req = Return (JObj d) →
  lookup_field "key" d = Some key →
  key = JStr "" ∨ key = JInt 0 ∨ key = JBool false →
  set_fact environ backend req w =
    (Return (JObj [("error", JStr "Missing key or value")]), w).
Proof.
  intros Hbody Hkey Hfalsy. apply (set_fact_rejects req d w Hbody). left.
  rewrite Hkey. destruct Hfalsy as [-> | [-> | ->]]; reflexivity.
Qed.

(** C6. When the backend answers [get_fact]'s request with success and a
    JSON object, [get_fact] returns [{"value": v}] with [v] the [value] field
    of that object, and [{"value": null}] when the object has no such
    field. *)
Theorem get_fact_returns_value (key : string) (w : world) (resp : response)
    (fields : list (string * json)) :
  backend (sent w) (get_request environ w key) = Return resp →
  200 ≤ status_code resp < 300 →
  json_body resp = Return (JObj fields) →
  (∀ v, lookup_field "value" fields = Some v →
        fst (get_fact environ backend key w) = Return (JObj [("value", v)]))
  ∧ (lookup_field "value" fields = None →
     fst (get_fact environ backend key w) = Return (JObj [("value", JNull)])).
Proof.
  intros Hresp Hstatus Hjson.
  rewrite get_fact_forwards, Hresp, raise_for_status_passes, Hjson by lia.
  simpl. split; [intros v Hv | intros Hv]; rewrite Hv; reflexivity.
Qed.


End FactRoutes.

(** ** Start-up and the module globals *)

Section Startup.

Context `{PyLib}.
Variable environ : gmap string string.
Variable wall : nat → Qc.
Variable backend : list http_request → http_request → outcome response.

Lemma preserves_ret {A : Type} (R : relation world) `{!Reflexive R} (a : A) :
  preserves R (mret a).
Proof. intros w. simpl. reflexivity. Qed.

Lemma preserves_pure {A : Type} (R : relation world) `{!Reflexive R}
    (o : outcome A) :
  preserves R (pure o).
Proof. intros w. simpl. reflexivity. Qed.

Lemma preserves_bind {A B : Type} (R : relation world) `{!Transitive R}
    (m : M A) (k : A → M B) :
  preserves R m → (∀ a, preserves R (k a)) → preserves R (m ≫= k).
Proof.
  intros Hm Hk w. unfold mbind, M_bind. specialize (Hm w).
  destruct (m w) as [[a | e] w']; simpl in *; [| exact Hm].
  transitivity w'; [exact Hm | apply Hk].
Qed.

Lemma preserves_try {A : Type} (R : relation world) `{!Transitive R}
    (body : M A) (handler : exn → M A) :
  preserves R body → (∀ e, preserves R (handler e)) →
  preserves R (try_except body handler).
Proof.
  intros Hbody Hhandler w. unfold try_except. specialize (Hbody w).
  destruct (body w) as [[a | e] w']; simpl in *; [exact Hbody |].
  transitivity w'; [exact Hbody | apply Hhandler].
Qed.

Lemma preserves_if {A : Type} (R : relation world) (b : bool) (m1 m2 : M A) :
  preserves R m1 → preserves R m2 → preserves R (if b then m1 else m2).
Proof. destruct b; auto. Qed.

Lemma preserves_read (R : relation world) `{!Reflexive R} :
  preserves R read_module.
Proof. intros w. simpl. reflexivity. Qed.

Lemma preserves_lrange (R : relation world) `{!Reflexive R}
    (key : string) (start stop : Z) :
  preserves R (lrange key start stop).
Proof. intros w. simpl. reflexivity. Qed.

(** Every route preserves a relation that holds across a reading of the
    clock, across a request to the backend and across the push of a
    serialised value. *)
Lemma serve_preserves (R : relation world) `{!PreOrder R} :
  preserves R (time_time wall) →
  (∀ rq, preserves R (send backend rq)) →
  (∀ key v, preserves R (lpush key (dumps v))) →
  ∀ c, preserves R (serve environ wall backend c).
Proof.
  intros Htime Hsend Hpush c.
  destruct c as [req | req | key]; simpl;
    [unfold message_endpoint | unfold set_fact, requests_post
    | unfold get_fact, requests_get];
    repeat first
      [ apply preserves_bind; [typeclasses eauto | | intros ?]
      | apply preserves_try; [typeclasses eauto | | intros ?]
      | apply preserves_if
      | apply preserves_ret; typeclasses eauto
      | apply preserves_pure; typeclasses eauto
      | apply preserves_read; typeclasses eauto
      | apply preserves_lrange; typeclasses eauto
      | exact Htime
      | apply Hsend
      | apply Hpush ].
Qed.

Lemma serve_all_preserves (R : relation world) `{!PreOrder R} :
  (∀ c, preserves R (serve environ wall backend c)) →
  ∀ cs w, R w (serve_all environ wall backend cs w).
Proof.
  intros Hserve cs. induction cs as [|c cs IH]; intros w; simpl; [reflexivity |].
  transitivity (snd (serve environ wall backend c w)); [apply Hserve | apply IH].
Qed.

#[local] Instance same_module_preorder : PreOrder same_module.
Proof.
  split; [intros w; reflexivity |].
  intros w1 w2 w3 H12 H23. unfold same_module in *. congruence.
Qed.

#[local] Instance stays_decodable_preorder : PreOrder stays_decodable.
Proof.
  split; [intros w Hw; exact Hw |].
  intros w1 w2 w3 H12 H23 Hw. apply H23, H12, Hw.
Qed.

Lemma serve_all_keeps_module (cs : list call) (w : world) :
  module (serve_all environ wall backend cs w) = module w.
Proof.
  apply (serve_all_preserves same_module). apply (serve_preserves same_module).
  - intros w'. reflexivity.
  - intros rq w'. reflexivity.
  - intros key v w'. reflexivity.
Qed.




(** C9. With [AGENT_ID] unset the identity is ["unknown"]; with
    [AGENT_CONFIG] unset or empty the configuration is [{}], the context is
    [""] and the tool list is [[]]. What start-up binds stays bound: after
    any sequence of calls the module globals are the ones start-up gave, so
    every call of [message_endpoint] reads those. *)
Theorem startup_defaults :
  (environ !! "AGENT_ID" = None →
   ∀ g, startup environ = Return g → AGENT_ID g = "unknown")
  ∧ (environ !! "AGENT_CONFIG" = None ∨ environ !! "AGENT_CONFIG" = Some "" →
     startup environ =
       Return (Globals (environ_get environ "AGENT_ID" "unknown")
                 (JObj []) (JStr "") (JArr [])))
  ∧ (∀ g w cs,
       startup environ = Return g → module w = g →
       module (serve_all environ wall backend cs w) = g).
Proof.
  split; [| split].
  - intros Hid g. unfold startup, environ_get. rewrite Hid. simpl.
    destruct load_AGENT_CONFIG as [config |]; simpl; [| discriminate].
    destruct (get config "systemPrompt" (JStr "")) as [context |]; simpl;
      [| discriminate].
    destruct (get config "tools" (JArr [])) as [tools |]; simpl; [| discriminate].
    intros [= <-]. reflexivity.
  - intros Hcfg. unfold startup, load_AGENT_CONFIG.
    destruct Hcfg as [-> | ->]; reflexivity.
  - intros g w cs _ <-. apply serve_all_keeps_module.
Qed.


End Startup.

(** ** The claims on concrete runs *)

Lemma missing_message_rejected_witness :
  message_endpoint Example.wall (Example.body [("text", JStr "hi")]) Example.idle
    = (Return (JObj [("error", JStr "Missing message")]), Example.idle)
  ∧ message_endpoint Example.wall (Example.body [("message", JStr "")]) Example.idle
    = (Return (JObj [("error", JStr "Missing message")]), Example.idle).
Proof.
  split.
  - apply (missing_message_rejected Example.wall _ [("text", JStr "hi")]);
      [reflexivity | left; reflexivity].
  - apply (missing_message_rejected Example.wall _ [("message", JStr "")]);
      [reflexivity | right; reflexivity].
Defined.

Lemma set_fact_value_validation_witness :
  sent (snd (set_fact Example.unset (Example.answers 200 "OK" (Return (JObj [])))
               (Example.body [("key", JStr "colour"); ("value", JInt 0)])
               Example.idle))
    = [set_request Example.unset Example.idle (JStr "colour") (JInt 0)]
  ∧ set_fact Example.unset (Example.answers 200 "OK" (Return (JObj [])))
      (Example.body [("key", JStr "colour"); ("value", JNull)]) Example.idle
    = (Return (JObj [("error", JStr "Missing key or value")]), Example.idle).
Proof.
  split.
  - apply (set_fact_value_validation Example.unset
             (Example.answers 200 "OK" (Return (JObj [])))
             (Example.body [("key", JStr "colour"); ("value", JInt 0)])
             [("key", JStr "colour"); ("value", JInt 0)] (JStr "colour")
             Example.idle eq_refl eq_refl eq_refl);
      [reflexivity | left; reflexivity].
  - apply (set_fact_value_validation Example.unset
             (Example.answers 200 "OK" (Return (JObj [])))
             (Example.body [("key", JStr "colour"); ("value", JNull)])
             [("key", JStr "colour"); ("value", JNull)] (JStr "colour")
             Example.idle eq_refl eq_refl eq_refl).
    right. reflexivity.
Defined.

Lemma falsy_key_rejected_witness :
  set_fact Example.unset Example.unreachable
    (Example.body [("key", JInt 0); ("value", JStr "red")]) Example.idle
  = (Return (JObj [("error", JStr "Missing key or value")]), Example.idle).
Proof.
  apply (falsy_key_rejected Example.unset Example.unreachable
           (Example.body [("key", JInt 0); ("value", JStr "red")])
           [("key", JInt 0); ("value", JStr "red")] (JInt 0));
    [reflexivity | reflexivity | right; left; reflexivity].
Defined.

Lemma get_fact_returns_value_witness :
  fst (get_fact Example.unset
         (Example.answers 200 "OK" (Return (JObj [("value", JStr "red")])))
         "colour" Example.idle)
    = Return (JObj [("value", JStr "red")])
  ∧ fst (get_fact Example.unset (Example.answers 200 "OK" (Return (JObj [])))
           "colour" Example.idle)
    = Return (JObj [("value", JNull)]).
Proof.
  split.
  - apply (get_fact_returns_value Example.unset
             (Example.answers 200 "OK" (Return (JObj [("value", JStr "red")])))
             "colour" Example.idle
             (Response 200 "OK"
                "http://host.docker.internal:4000/api/longterm/get/unknown/colour"
                (Return (JObj [("value", JStr "red")])))
             [("value", JStr "red")] eq_refl);
      [simpl; lia | reflexivity | reflexivity].
  - apply (get_fact_returns_value Example.unset
             (Example.answers 200 "OK" (Return (JObj [])))
             "colour" Example.idle
             (Response 200 "OK"
                "http://host.docker.internal:4000/api/longterm/get/unknown/colour"
                (Return (JObj [])))
             [] eq_refl);
      [simpl; lia | reflexivity | reflexivity].
Defined.




Lemma timestamps_non_decreasing_witness :
  ∃ (content : string) (history : list json) (t_user t_agent : Z),
    fst (message_endpoint Example.wall Example.hi Example.idle)
      = Return (JObj [("role", JStr "agent"); ("content", JStr content);
                      ("timestamp", JInt t_agent); ("memory", JArr history)])
    ∧ t_user ≤ t_agent.
Proof.
  destruct (timestamps_non_decreasing Example.wall Example.hi
              [("message", JStr "hi")] (JStr "hi") Example.idle)
    as (content & history & t_user & t_agent & Hret & _ & Hle);
    [| reflexivity | reflexivity | reflexivity | reflexivity | constructor |].
  - intros i j Hij. unfold Example.wall, Qcle. simpl. rewrite !Qred_correct.
    unfold Qle. simpl. lia.
  - exists content, history, t_user, t_agent. split; assumption.
Defined.

Lemma startup_defaults_witness :
  startup Example.unset =
    Return (Globals "unknown" (JObj []) (JStr "") (JArr [])).
Proof.
  destruct (startup_defaults Example.unset Example.wall Example.unreachable)
    as (_ & Hconfig & _).
  apply Hconfig. left. reflexivity.
Defined.

(** ** POST /message beyond the success path *)

Section MessageEdges.

Context `{PyLib}.
Variable wall : nat → Qc.

(** The world once the user record of a call has been pushed. *)
Lemma message_endpoint_cases (req : Request) (d : list (string * json))
    (message : json) (w : world) :
  req_json req = Return (JObj d) →
  lookup_field "message" d = Some message →
  truthy message = true →
  message_endpoint wall req w =
    match comprehension loads
            (Redis.lrange (messages_key (module w)) 0 9
               (redis (after_user_push wall w message))) with
    | Raise e => (Raise e, after_user_push wall w message)
    | Return history =>
        match response_content (module w) message with
        | Raise e => (Raise e, after_user_push wall w message)
        | Return content =>
            (Return (agent_record content (wall (S (ticks w))) history),
             World (module w)
               (Redis.lpush (messages_key (module w))
                  (dumps (agent_record content (wall (S (ticks w))) history))
                  (redis (after_user_push wall w message)))
               (S (S (ticks w))) (sent w))
        end
    end.
Proof.
  intros Hbody Hmsg Htruthy.
  unfold message_endpoint, mbind, M_bind, pure.
  rewrite Hbody. simpl. rewrite Hmsg. simpl. rewrite Htruthy. simpl.
  unfold lrange, after_user_push. simpl.
  destruct (comprehension loads _) as [history | e]; [| reflexivity].
  destruct (response_content (module w) message) as [content | e]; reflexivity.
Qed.

(** When the body does not decode, or decodes to a value that is not an
    object, [message_endpoint] raises (the decoding exception, or the
    [AttributeError] of [data.get]) and the world is what it was: nothing is
    pushed and the clock is not read. *)
Theorem message_endpoint_bad_body (req : Request) (w : world) :
  (∀ e, req_json req = Raise e → message_endpoint wall req w = (Raise e, w))
  ∧ (∀ v, req_json req = Return v → (∀ d, v ≠ JObj d) →
       message_endpoint wall req w = (Raise (AttributeError v "get"), w)).
Proof.
  split.
  - intros e Hbody. unfold message_endpoint, mbind, M_bind, pure.
    rewrite Hbody. reflexivity.
  - intros v Hbody Hv. unfold message_endpoint, mbind, M_bind, pure.
    rewrite Hbody. destruct v; try reflexivity. exfalso. eapply Hv. reflexivity.
Qed.

(** A call that passes the message check and then raises, because an entry
    of the log it reads does not decode or because the configured tool list
    cannot be rendered, has pushed the user record and nothing else: the log
    is the old log with the user record in front, and no agent record. *)
Theorem message_endpoint_raises_after_push (req : Request)
    (d : list (string * json)) (message : json) (w : world) (e : exn) :
  req_json req = Return (JObj d) →
  lookup_field "message" d = Some message →
  truthy message = true →
  fst (message_endpoint wall req w) = Raise e →
  snd (message_endpoint wall req w) = after_user_push wall w message
  ∧ Redis.list_at (messages_key (module w))
      (redis (snd (message_endpoint wall req w)))
    = dumps (user_record message (wall (ticks w)))
        :: Redis.list_at (messages_key (module w)) (redis w).
Proof.
  intros Hbody Hmsg Htruthy.
  rewrite (message_endpoint_cases req d message w Hbody Hmsg Htruthy).
  destruct (comprehension loads _) as [history | e1].
  - destruct (response_content (module w) message) as [content | e2];
      [discriminate |].
    intros _. split; [reflexivity |]. simpl. apply list_at_lpush.
  - intros _. split; [reflexivity |]. simpl. apply list_at_lpush.
Qed.

(** On an object body, [message_endpoint] answers
    [{"error": "Missing message"}] exactly when the message is falsy
    ([None], [false], [0], [0.0], [""], [[]], [{}]) or absent; any truthy
    message, a string or not, gets past the check and the user record is
    pushed. *)
Theorem missing_message_iff_falsy (req : Request) (d : list (string * json))
    (w : world) :
  req_json req = Return (JObj d) →
  (fst (message_endpoint wall req w)
     = Return (JObj [("error", JStr "Missing message")])
   ↔ truthy (default JNull (lookup_field "message" d)) = false)
  ∧ (truthy (default JNull (lookup_field "message" d)) = true →
     (dumps (user_record (default JNull (lookup_field "message" d))
               (wall (ticks w)))
        :: Redis.list_at (messages_key (module w)) (redis w))
     `suffix_of`
     Redis.list_at (messages_key (module w))
       (redis (snd (message_endpoint wall req w)))).
Proof.
  intros Hbody.
  destruct (truthy (default JNull (lookup_field "message" d))) eqn:Htruthy.
  - destruct (lookup_field "message" d) as [message |] eqn:Hmsg;
      [| discriminate]. simpl in *.
    rewrite (message_endpoint_cases req d message w Hbody Hmsg Htruthy).
    destruct (comprehension loads _) as [history | e1];
      [destruct (response_content (module w) message) as [content | e2] |];
      (split; [split; discriminate | intros _; simpl; rewrite !list_at_lpush]).
    + apply suffix_cons_r. reflexivity.
    + reflexivity.
    + reflexivity.
  - rewrite (message_endpoint_rejects wall req d w Hbody Htruthy).
    split; [split; reflexivity | discriminate].
Qed.

End MessageEdges.

(** ** What a call can change *)

Lemma list_ascii_of_append (s t : string) :
  String.list_ascii_of_string (s ++ t)
  = (String.list_ascii_of_string s ++ String.list_ascii_of_string t)%list.
Proof. induction s as [|c s IH]; simpl; [reflexivity | rewrite IH; reflexivity]. Qed.

Lemma append_inv_tail (s1 s2 t : string) : s1 ++ t = s2 ++ t → s1 = s2.
Proof.
  intros Heq. apply (f_equal String.list_ascii_of_string) in Heq.
  rewrite !list_ascii_of_append in Heq. apply app_inv_tail in Heq.
  rewrite <- (String.string_of_list_ascii_of_string s1),
    <- (String.string_of_list_ascii_of_string s2), Heq. reflexivity.
Qed.

Lemma messages_key_inj (g g' : globals) :
  messages_key g = messages_key g' → AGENT_ID g = AGENT_ID g'.
Proof.
  unfold messages_key. intros Heq. apply String.app_inj in Heq.
  apply append_inv_tail in Heq. exact Heq.
Qed.

Lemma list_at_lpush_ne (key key' value : string) (db : gmap string (list string)) :
  key ≠ key' →
  Redis.list_at key' (Redis.lpush key value db) = Redis.list_at key' db.
Proof. intros Hne. unfold Redis.list_at. rewrite lookup_lpush_ne by exact Hne. reflexivity. Qed.

Section Frames.

Context `{PyLib}.
Variable environ : gmap string string.
Variable wall : nat → Qc.
Variable backend : list http_request → http_request → outcome response.

(** The worlds a call of [message_endpoint] can end in: the one it started
    in, that one with the user record pushed, or that one with the user
    record and then an agent record pushed. *)
Lemma message_endpoint_world (req : Request) (w : world) :
  snd (message_endpoint wall req w) = w
  ∨ (∃ message, snd (message_endpoint wall req w) = after_user_push wall w message)
  ∨ (∃ message agent,
       snd (message_endpoint wall req w) =
         World (module w)
           (Redis.lpush (messages_key (module w)) (dumps agent)
              (redis (after_user_push wall w message)))
           (S (S (ticks w))) (sent w)).
Proof.
  destruct (req_json req) as [v | e] eqn:Hbody.
  - destruct v as [| | | | | | d];
      try (left; unfold message_endpoint, mbind, M_bind, pure; rewrite Hbody;
           reflexivity).
    destruct (truthy (default JNull (lookup_field "message" d))) eqn:Htruthy.
    + destruct (lookup_field "message" d) as [message |] eqn:Hmsg;
        [| discriminate]. simpl in Htruthy.
      rewrite (message_endpoint_cases wall req d message w Hbody Hmsg Htruthy).
      destruct (comprehension loads _) as [history | e1];
        [destruct (response_content (module w) message) as [content | e2] |].
      * right. right. eexists _, _. reflexivity.
      * right. left. eexists. reflexivity.
      * right. left. eexists. reflexivity.
    + left. rewrite (message_endpoint_rejects wall req d w Hbody Htruthy).
      reflexivity.
  - left. unfold message_endpoint, mbind, M_bind, pure. rewrite Hbody.
    reflexivity.
Qed.

Lemma set_fact_world (req : Request) (w : world) :
  snd (set_fact environ backend req w) = w
  ∨ ∃ rq, snd (set_fact environ backend req w) = after_send w rq.
Proof.
  unfold set_fact, mbind, M_bind, pure.
  destruct (req_json req) as [v | e]; [| left; reflexivity].
  destruct (get v "key" JNull) as [key | e]; [| left; reflexivity].
  destruct (get v "value" JNull) as [value | e]; [| left; reflexivity].
  destruct (negb (truthy key) || is_none value); [left; reflexivity |].
  right. unfold try_except, requests_post, send, read_module. simpl.
  destruct (backend _ _) as [resp | e]; [| eexists; reflexivity].
  destruct (raise_for_status resp) as [[] | e]; eexists; reflexivity.
Qed.

Lemma get_fact_world (key : string) (w : world) :
  snd (get_fact environ backend key w) = after_send w (get_request environ w key).
Proof. rewrite get_fact_forwards. reflexivity. Qed.

(** Each route keeps to its side: [message_endpoint] sends nothing to the
    backend, and [set_fact] and [get_fact] neither change the store nor read
    the clock, whatever the request and whatever the outcome. *)
Theorem routes_keep_to_their_side :
  (∀ req w, sent (snd (message_endpoint wall req w)) = sent w)
  ∧ (∀ req w, redis (snd (set_fact environ backend req w)) = redis w
              ∧ ticks (snd (set_fact environ backend req w)) = ticks w)
  ∧ (∀ key w, redis (snd (get_fact environ backend key w)) = redis w
              ∧ ticks (snd (get_fact environ backend key w)) = ticks w).
Proof.
  split; [| split].
  - intros req w.
    destruct (message_endpoint_world req w)
      as [-> | [[message ->] | (message & agent & ->)]]; reflexivity.
  - intros req w.
    destruct (set_fact_world req w) as [-> | [rq ->]]; split; reflexivity.
  - intros key w. rewrite get_fact_world. split; reflexivity.
Qed.

(** [message_endpoint] changes no key of the store but its own,
    [agent:{AGENT_ID}:messages], whether it returns or raises. *)
Theorem message_endpoint_touches_own_key (req : Request) (w : world) (k : string) :
  k ≠ messages_key (module w) →
  redis (snd (message_endpoint wall req w)) !! k = redis w !! k.
Proof.
  intros Hk.
  destruct (message_endpoint_world req w)
    as [-> | [[message ->] | (message & agent & ->)]]; simpl;
    rewrite ?lookup_lpush_ne by congruence; reflexivity.
Qed.

(** In a store shared by several agents, no call served by one agent changes
    the log of an agent with another identity. *)
Theorem other_agents_log_untouched (c : call) (w : world) (other : globals) :
  AGENT_ID (module w) ≠ AGENT_ID other →
  Redis.list_at (messages_key other) (redis (snd (serve environ wall backend c w)))
  = Redis.list_at (messages_key other) (redis w).
Proof.
  intros Hid.
  assert (messages_key (module w) ≠ messages_key other) as Hkey.
  { intros Heq. apply Hid, messages_key_inj, Heq. }
  destruct c as [req | req | key]; simpl.
  - destruct (message_endpoint_world req w)
      as [-> | [[message ->] | (message & agent & ->)]]; simpl;
      rewrite ?list_at_lpush_ne by exact Hkey; reflexivity.
  - destruct (set_fact_world req w) as [-> | [rq ->]]; reflexivity.
  - rewrite get_fact_world. reflexivity.
Qed.

(** One call puts at most two entries in front of a list of the store and
    leaves the entries that were there as they were. *)
Theorem call_adds_at_most_two (c : call) (w : world) (key : string) :
  ∃ front,
    Redis.list_at key (redis (snd (serve environ wall backend c w)))
    = (front ++ Redis.list_at key (redis w))%list
    ∧ (length front ≤ 2)%nat.
Proof.
  destruct c as [req | req | k]; simpl.
  - destruct (message_endpoint_world req w)
      as [-> | [[message ->] | (message & agent & ->)]]; simpl.
    + exists []. split; [reflexivity | simpl; lia].
    + destruct (decide (messages_key (module w) = key)) as [<- | Hne].
      * rewrite list_at_lpush. exists [dumps (user_record message (wall (ticks w)))].
        split; [reflexivity | simpl; lia].
      * rewrite list_at_lpush_ne by exact Hne. exists [].
        split; [reflexivity | simpl; lia].
    + destruct (decide (messages_key (module w) = key)) as [<- | Hne].
      * rewrite !list_at_lpush.
        exists [dumps agent; dumps (user_record message (wall (ticks w)))].
        split; [reflexivity | simpl; lia].
      * rewrite !list_at_lpush_ne by exact Hne. exists [].
        split; [reflexivity | simpl; lia].
  - destruct (set_fact_world req w) as [-> | [rq ->]]; exists [];
      (split; [reflexivity | simpl; lia]).
  - rewrite get_fact_world. exists []. split; [reflexivity | simpl; lia].
Qed.

#[local] Instance log_grows_preorder : PreOrder log_grows.
Proof.
  split; [intros w key; reflexivity |].
  intros w1 w2 w3 H12 H23 key. transitivity (Redis.list_at key (redis w2)); auto.
Qed.

(** The log is append-only: after any sequence of calls, every list of the
    store still ends with the entries it held before, unchanged and in the
    same order. *)
Theorem log_is_append_only (cs : list call) (w : world) :
  log_grows w (serve_all environ wall backend cs w).
Proof.
  apply (serve_all_preserves environ wall backend log_grows).
  apply (serve_preserves environ wall backend log_grows).
  - intros w' key. reflexivity.
  - intros rq w' key. reflexivity.
  - intros k v w' key. simpl.
    destruct (decide (k = key)) as [<- | Hne].
    + rewrite list_at_lpush. apply suffix_cons_r. reflexivity.
    + rewrite list_at_lpush_ne by exact Hne. reflexivity.
Qed.

End Frames.

(** ** The fact routes beyond the success path *)

Section FactEdges.

Context `{PyLib}.
Variable environ : gmap string string.
Variable wall : nat → Qc.
Variable backend : list http_request → http_request → outcome response.


(** When the body does not decode, or decodes to a value that is not an
    object, [set_fact] raises (these statements stand before its [try]): the
    exception is not turned into an [{"error": ...}] answer, and nothing is
    sent. *)
Theorem set_fact_bad_body (req : Request) (w : world) :
  (∀ e, req_json req = Raise e →
        set_fact environ backend req w = (Raise e, w))
  ∧ (∀ v, req_json req = Return v → (∀ d, v ≠ JObj d) →
          set_fact environ backend req w = (Raise (AttributeError v "get"), w)).
Proof.
  split.
  - intros e Hbody. unfold set_fact, mbind, M_bind, pure. rewrite Hbody.
    reflexivity.
  - intros v Hbody Hv. unfold set_fact, mbind, M_bind, pure. rewrite Hbody.
    destruct v; try reflexivity. exfalso. eapply Hv. reflexivity.
Qed.

(** An answer that passes the status check is still reported as an error
    when its body is not a JSON object: [{"error": m}] with [m] the text of
    the decoding exception when the body does not decode, and the text of
    the [AttributeError] of [data.get] when it decodes to a list, a string,
    a number, a boolean or [null]. *)
Theorem get_fact_body_not_object (key : string) (w : world) (resp : response) :
  backend (sent w) (get_request environ w key) = Return resp →
  status_code resp < 400 ∨ 600 ≤ status_code resp →
  (∀ e, json_body resp = Raise e →
        fst (get_fact environ backend key w)
          = Return (JObj [("error", JStr (exn_str e))]))
  ∧ (∀ v, json_body resp = Return v → (∀ d, v ≠ JObj d) →
          fst (get_fact environ backend key w)
            = Return (JObj [("error",
                             JStr ("'" ++ type_name v
                                     ++ "' object has no attribute 'get'"))])).
Proof.
  intros Hresp Hstatus.
  rewrite get_fact_forwards, Hresp, raise_for_status_passes by exact Hstatus.
  simpl. split.
  - intros e ->. reflexivity.
  - intros v -> Hv. destruct v; try reflexivity. exfalso. eapply Hv. reflexivity.
Qed.

(** The requests sent are a history: a sequence of calls adds at most one
    request per call at the end of it and changes none of the earlier
    ones. *)
Theorem requests_sent_bounded (cs : list call) (w : world) :
  ∃ more,
    sent (serve_all environ wall backend cs w) = (sent w ++ more)%list
    ∧ (length more ≤ length cs)%nat.
Proof.
  revert w. induction cs as [|c cs IH]; intros w; simpl.
  - exists []. rewrite app_nil_r. split; [reflexivity | simpl; lia].
  - destruct (IH (snd (serve environ wall backend c w))) as (more & -> & Hlen).
    destruct c as [req | req | key]; simpl.
    + destruct (message_endpoint_world wall req w)
        as [-> | [[message ->] | (message & agent & ->)]]; simpl;
        (exists more; split; [reflexivity | lia]).
    + destruct (set_fact_world environ backend req w) as [-> | [rq ->]]; simpl.
      * exists more. split; [reflexivity | lia].
      * exists (rq :: more). rewrite <- app_assoc. split; [reflexivity | simpl; lia].
    + rewrite get_fact_world. simpl.
      exists (get_request environ w key :: more). rewrite <- app_assoc.
      split; [reflexivity | simpl; lia].
Qed.

End FactEdges.

(** ** The content of the answer and the configured tools *)

Lemma join_from_concat (i : nat) (sep : string) (names : list string) :
  join_from i sep (map JStr names) = Return (String.concat sep names).
Proof.
  revert i. induction names as [|s names IH]; intros i; [reflexivity |].
  destruct names as [|s' names]; [reflexivity |].
  change (join_from i sep (map JStr (s :: s' :: names)))
    with (match join_from (S i) sep (map JStr (s' :: names)) with
          | Return t => Return (s ++ sep ++ t)
          | Raise e => Raise e
          end).
  rewrite IH. reflexivity.
Qed.

Lemma tool_names_descriptors (items : list json) :
  forallb is_tool_descriptor items = true →
  tool_names (JArr items) = Return (map (λ t, JStr (tool_name t)) items).
Proof.
  unfold tool_names. simpl. induction items as [|t items IH]; simpl; intros Hwt.
  - reflexivity.
  - apply andb_true_iff in Hwt as [Ht Hitems]. rewrite (IH Hitems).
    destruct t as [| | | | | |fields]; try discriminate. simpl in *.
    destruct (lookup_field "name" fields) as [[| | | |s| |]|]; try discriminate;
      reflexivity.
Qed.


Section Content.

Context `{PyLib}.
Variable wall : nat → Qc.

(** With a tool list made of tool descriptors, the content of the record
    [message_endpoint] returns is the message, the configured context and
    the names of the tools in their order, separated by [", "]; a tool
    without a name counts as the empty name, and an empty list leaves
    nothing after ["Tools: "]. *)
Theorem content_lists_tool_names (req : Request) (d : list (string * json))
    (message : json) (w : world) (items : list json) :
  req_json req = Return (JObj d) →
  lookup_field "message" d = Some message →
  truthy message = true →
  agent_tools (module w) = JArr items →
  forallb is_tool_descriptor items = true →
  Forall (λ entry, ∃ v, loads entry = Return v)
    (take 9 (Redis.list_at (messages_key (module w)) (redis w))) →
  ∃ history,
    fst (message_endpoint wall req w) =
      Return (agent_record
                ("Echo: " ++ str message ++ nl
                   ++ "Context: " ++ str (agent_context (module w)) ++ nl
                   ++ "Tools: " ++ String.concat ", " (map tool_name items))
                (wall (S (ticks w))) history).
Proof.
  intros Hbody Hmsg Htruthy Htools Hwt Hlog.
  destruct (comprehension_total _ _ Hlog) as [earlier Hearlier].
  exists (user_record message (wall (ticks w)) :: earlier).
  rewrite (message_endpoint_accepts wall req d message w
             (user_record message (wall (ticks w)) :: earlier)
             ("Echo: " ++ str message ++ nl
                ++ "Context: " ++ str (agent_context (module w)) ++ nl
                ++ "Tools: " ++ String.concat ", " (map tool_name items))
             Hbody Hmsg Htruthy).
  - reflexivity.
  - apply history_after_user_push. exact Hearlier.
  - unfold response_content, join. rewrite Htools, (tool_names_descriptors items Hwt).
    simpl. rewrite <- (map_map tool_name JStr), join_from_concat. reflexivity.
Qed.


End Content.

(** ** Start-up beyond the defaults, and calls in sequence *)

Section Sequences.

Context `{PyLib}.
Variable environ : gmap string string.
Variable wall : nat → Qc.
Variable backend : list http_request → http_request → outcome response.

(** [redis.Redis.from_url], as [import_module] takes it. *)
Variable from_url : string → outcome unit.

(** The import of the module (lines 12-19) fails at the first of three
    steps that raises: decoding [AGENT_CONFIG] (a set, non-empty value is
    decoded from base 64 and then from JSON), building the Redis client from
    [REDIS_URL] (["redis://localhost:6379"] when unset), whatever the
    configuration is, and reading [systemPrompt] and [tools], which raises
    the [AttributeError] of [AGENT_CONFIG.get] when the configuration is not
    an object. It succeeds when none does, each of [systemPrompt] and
    [tools] being taken from the configuration or defaulting to [""] and
    [[]]; the globals it binds are then those of [startup]. *)
Theorem import_module_outcomes :
  (∀ e, load_AGENT_CONFIG environ = Raise e →
        import_module environ from_url = Raise e)
  ∧ (∀ config e,
       load_AGENT_CONFIG environ = Return config →
       from_url (default "redis://localhost:6379" (environ !! "REDIS_URL"))
         = Raise e →
       import_module environ from_url = Raise e)
  ∧ (∀ v,
       load_AGENT_CONFIG environ = Return v →
       from_url (default "redis://localhost:6379" (environ !! "REDIS_URL"))
         = Return () →
       (∀ d, v ≠ JObj d) →
       import_module environ from_url = Raise (AttributeError v "get"))
  ∧ (∀ d,
       load_AGENT_CONFIG environ = Return (JObj d) →
       from_url (default "redis://localhost:6379" (environ !! "REDIS_URL"))
         = Return () →
       import_module environ from_url =
         Return (Globals (default "unknown" (environ !! "AGENT_ID")) (JObj d)
                   (default (JStr "") (lookup_field "systemPrompt" d))
                   (default (JArr []) (lookup_field "tools" d))))
  ∧ (∀ g, import_module environ from_url = Return g →
          startup environ = Return g)
  ∧ (∀ s, environ !! "AGENT_CONFIG" = Some s → s ≠ "" →
          load_AGENT_CONFIG environ =
            match b64decode_utf8 s with
            | Return text => loads text
            | Raise e => Raise e
            end).
Proof.
  unfold import_module, startup, REDIS_URL, environ_get.
  split; [| split; [| split; [| split; [| split]]]].
  - intros e ->. reflexivity.
  - intros config e -> Hurl. simpl. rewrite Hurl. reflexivity.
  - intros v -> Hurl Hv. simpl. rewrite Hurl. simpl.
    destruct v; try reflexivity. exfalso. eapply Hv. reflexivity.
  - intros d -> Hurl. simpl. rewrite Hurl. reflexivity.
  - intros g. destruct (load_AGENT_CONFIG environ) as [config | e]; simpl;
      [| discriminate].
    destruct (from_url _) as [[] | e]; simpl; [| discriminate].
    intros Hg. exact Hg.
  - intros s Hs Hne. unfold load_AGENT_CONFIG, environ_get. rewrite Hs.
    rewrite (truthy_nonempty_str s Hne). reflexivity.
Qed.


(** What one call answers is in the memory of the next: when two calls with
    accepted messages follow each other, the memory of the second agent
    record starts with the second user record, then the first agent record,
    then the first user record. *)
Theorem reply_is_remembered (req1 req2 : Request) (d1 d2 : list (string * json))
    (m1 m2 : json) (w : world) :
  req_json req1 = Return (JObj d1) → lookup_field "message" d1 = Some m1 →
  truthy m1 = true →
  req_json req2 = Return (JObj d2) → lookup_field "message" d2 = Some m2 →
  truthy m2 = true →
  well_typed_tools (agent_tools (module w)) = true →
  Forall (λ entry, ∃ v, loads entry = Return v)
    (take 9 (Redis.list_at (messages_key (module w)) (redis w))) →
  ∃ agent1 content2 rest,
    fst (message_endpoint wall req1 w) = Return agent1
    ∧ fst (message_endpoint wall req2 (snd (message_endpoint wall req1 w)))
      = Return (agent_record content2 (wall (S (S (S (ticks w)))))
                  (user_record m2 (wall (S (S (ticks w))))
                     :: agent1 :: user_record m1 (wall (ticks w)) :: rest)).
Proof.
  intros Hbody1 Hmsg1 Htruthy1 Hbody2 Hmsg2 Htruthy2 Htools Hlog.
  destruct (message_endpoint_run wall req1 d1 m1 w Hbody1 Hmsg1 Htruthy1 Htools Hlog)
    as (content1 & earlier & Hearlier & _ & Hrun1).
  rewrite Hrun1. cbn [fst snd].
  set (agent1 := agent_record content1 (wall (S (ticks w)))
                   (user_record m1 (wall (ticks w)) :: earlier)).
  set (w1 := World _ _ _ _).
  assert (comprehension loads
            (take 9 (Redis.list_at (messages_key (module w1)) (redis w1)))
          = Return (agent1 :: user_record m1 (wall (ticks w))
                      :: match comprehension loads
                                 (take 7 (Redis.list_at (messages_key (module w))
                                            (redis w))) with
                         | Return l => l
                         | Raise _ => []
                         end)) as Hread.
  { subst w1. cbn [module redis]. rewrite !list_at_lpush.
    change (take 9 (?x :: ?y :: ?l)) with (x :: y :: take 7 l).
    cbn [comprehension]. rewrite !loads_dumps.
    destruct (comprehension_total loads
                (take 7 (Redis.list_at (messages_key (module w)) (redis w))))
      as [l ->]; [| reflexivity].
    change 7%nat with (min 7 9). rewrite <- take_take. apply Forall_take.
    exact Hlog. }
  destruct (response_content_well_typed (module w1) m2) as [content2 Hcontent2];
    [exact Htools |].
  exists agent1, content2. eexists. split; [reflexivity |].
  rewrite (message_endpoint_accepts wall req2 d2 m2 w1 _ content2
             Hbody2 Hmsg2 Htruthy2
             (history_after_user_push _ _ _ _ Hread) Hcontent2).
  reflexivity.
Qed.

End Sequences.

(** ** The further properties on concrete runs *)

Lemma message_endpoint_bad_body_witness :
  message_endpoint Example.wall {| req_json := Return (JArr [JStr "hi"]) |}
    Example.idle
  = (Raise (AttributeError (JArr [JStr "hi"]) "get"), Example.idle).
Proof.
  apply (proj2 (message_endpoint_bad_body Example.wall
                  {| req_json := Return (JArr [JStr "hi"]) |} Example.idle));
    [reflexivity | discriminate].
Defined.


Lemma message_endpoint_raises_after_push_witness :
  Redis.list_at "agent:unknown:messages"
    (redis (snd (message_endpoint Example.wall Example.hi Example.misconfigured)))
  = [dumps (user_record (JStr "hi") (Example.wall 0))].
Proof.
  apply (message_endpoint_raises_after_push Example.wall Example.hi
           [("message", JStr "hi")] (JStr "hi") Example.misconfigured
           (AttributeError (JStr "search") "get"));
    [reflexivity | reflexivity | reflexivity | vm_compute; reflexivity].
Defined.

Lemma missing_message_iff_falsy_witness :
  fst (message_endpoint Example.wall (Example.body [("message", JArr [])])
         Example.idle)
  = Return (JObj [("error", JStr "Missing message")]).
Proof.
  apply (proj1 (missing_message_iff_falsy Example.wall
                  (Example.body [("message", JArr [])])
                  [("message", JArr [])] Example.idle eq_refl)).
  reflexivity.
Defined.

Lemma routes_keep_to_their_side_witness :
  sent (snd (message_endpoint Example.wall Example.hi Example.idle)) = []
  ∧ redis (snd (get_fact Example.unset Example.unreachable "colour" Example.idle))
    = ∅.
Proof.
  destruct (routes_keep_to_their_side Example.unset Example.wall
              Example.unreachable) as (Hmessage & _ & Hget).
  split; [apply (Hmessage Example.hi Example.idle) |].
  apply (Hget "colour" Example.idle).
Defined.

Lemma message_endpoint_touches_own_key_witness :
  redis (snd (message_endpoint Example.wall Example.hi Example.idle))
    !! "agent:other:messages" = None.
Proof.
  apply (message_endpoint_touches_own_key Example.wall Example.hi Example.idle
           "agent:other:messages").
  discriminate.
Defined.

Lemma other_agents_log_untouched_witness :
  Redis.list_at (messages_key Example.neighbour)
    (redis (snd (serve Example.unset Example.wall Example.unreachable
                   (PostMessage Example.hi) Example.idle)))
  = [].
Proof.
  apply (other_agents_log_untouched Example.unset Example.wall
           Example.unreachable (PostMessage Example.hi) Example.idle
           Example.neighbour).
  discriminate.
Defined.

Lemma call_adds_at_most_two_witness :
  ∃ front,
    Redis.list_at "agent:unknown:messages"
      (redis (snd (serve Example.unset Example.wall Example.unreachable
                     (PostMessage Example.hi) Example.idle)))
    = (front ++ [])%list
    ∧ (length front ≤ 2)%nat.
Proof.
  apply (call_adds_at_most_two Example.unset Example.wall Example.unreachable
           (PostMessage Example.hi) Example.idle "agent:unknown:messages").
Defined.

Lemma log_is_append_only_witness :
  log_grows Example.idle
    (serve_all Example.unset Example.wall Example.unreachable
       [PostMessage Example.hi; GetFactGet "colour"; PostMessage Example.hi]
       Example.idle).
Proof.
  apply (log_is_append_only Example.unset Example.wall Example.unreachable).
Defined.


Lemma set_fact_bad_body_witness :
  set_fact Example.unset Example.unreachable
    {| req_json := Return (JStr "colour") |} Example.idle
  = (Raise (AttributeError (JStr "colour") "get"), Example.idle).
Proof.
  apply (proj2 (set_fact_bad_body Example.unset Example.unreachable
                  {| req_json := Return (JStr "colour") |} Example.idle));
    [reflexivity | discriminate].
Defined.

Lemma get_fact_body_not_object_witness :
  fst (get_fact Example.unset
         (Example.answers 200 "OK" (Return (JArr [JStr "red"])))
         "colour" Example.idle)
  = Return (JObj [("error", JStr "'list' object has no attribute 'get'")]).
Proof.
  refine (proj2 (get_fact_body_not_object Example.unset
                   (Example.answers 200 "OK" (Return (JArr [JStr "red"])))
                   "colour" Example.idle
                   (Response 200 "OK"
                      "http://host.docker.internal:4000/api/longterm/get/unknown/colour"
                      (Return (JArr [JStr "red"])))
                   eq_refl _)
            (JArr [JStr "red"]) eq_refl _).
  - left. simpl. lia.
  - discriminate.
Defined.

Lemma requests_sent_bounded_witness :
  ∃ more,
    sent (serve_all Example.unset Example.wall Example.unreachable
            [GetFactGet "colour"; PostMessage Example.hi] Example.idle)
    = ([] ++ more)%list
    ∧ (length more ≤ 2)%nat.
Proof.
  apply (requests_sent_bounded Example.unset Example.wall Example.unreachable
           [GetFactGet "colour"; PostMessage Example.hi] Example.idle).
Defined.

Lemma content_lists_tool_names_witness :
  ∃ history,
    fst (message_endpoint Example.wall Example.hi Example.helpful) =
      Return (agent_record
                ("Echo: hi" ++ nl ++ "Context: Be helpful" ++ nl
                   ++ "Tools: search")
                (Example.wall 1) history).
Proof.
  apply (content_lists_tool_names Example.wall Example.hi
           [("message", JStr "hi")] (JStr "hi") Example.helpful
           [JObj [("name", JStr "search")]]);
    [reflexivity | reflexivity | reflexivity | reflexivity | reflexivity
    | constructor].
Defined.

Lemma import_module_outcomes_witness :
  import_module Example.configured Example.from_url =
    Return (Globals "unknown" Example.config (JStr "Be helpful")
              (JArr [JObj [("name", JStr "search")]]))
  ∧ import_module (<["REDIS_URL" := "localhost:6379"]> Example.configured)
      Example.from_url
    = Raise (Exn "ValueError"
               "Redis URL must specify one of the following schemes (redis://, rediss://, unix://)").
Proof.
  split.
  - apply (proj1 (proj2 (proj2 (proj2
             (import_module_outcomes Example.configured Example.from_url))))).
    + unfold load_AGENT_CONFIG, Example.configured, environ_get.
      rewrite lookup_singleton_eq. simpl. apply test_loads_dumps.
    + reflexivity.
  - apply (proj1 (proj2
             (import_module_outcomes
                (<["REDIS_URL" := "localhost:6379"]> Example.configured)
                Example.from_url)) Example.config).
    + unfold load_AGENT_CONFIG, Example.configured, environ_get.
      rewrite lookup_insert_ne by discriminate.
      rewrite lookup_singleton_eq. simpl. apply test_loads_dumps.
    + rewrite lookup_insert_eq. reflexivity.
Defined.


Lemma reply_is_remembered_witness :
  ∃ agent1 content2 rest,
    fst (message_endpoint Example.wall Example.hi Example.idle) = Return agent1
    ∧ fst (message_endpoint Example.wall (Example.body [("message", JInt 5)])
             (snd (message_endpoint Example.wall Example.hi Example.idle)))
      = Return (agent_record content2 (Example.wall 3)
                  (user_record (JInt 5) (Example.wall 2)
                     :: agent1 :: user_record (JStr "hi") (Example.wall 0)
                     :: rest)).
Proof.
  apply (reply_is_remembered Example.wall Example.hi
           (Example.body [("message", JInt 5)])
           [("message", JStr "hi")] [("message", JInt 5)]
           (JStr "hi") (JInt 5) Example.idle);
    [reflexivity | reflexivity | reflexivity | reflexivity | reflexivity
    | reflexivity | reflexivity | constructor].
Defined.

(** ** The log and the memory of one call *)

Lemma comprehension_Forall2 {A B : Type} (f : A → outcome B) xs ys :
  comprehension f xs = Return ys → Forall2 (λ x y, f x = Return y) xs ys.
Proof.
  revert ys. induction xs as [|x xs IH]; simpl; intros ys Hc.
  - injection Hc as <-. constructor.
  - destruct (f x) as [y|e] eqn:Hy; [|discriminate].
    destruct (comprehension f xs) as [ys'|e]; [|discriminate].
    injection Hc as <-. constructor; [exact Hy | apply IH; reflexivity].
Qed.

Section MessageLog.

Context `{PyLib}.
Variable wall : nat → Qc.


(** C7. Whatever the state of the log and its length, when
    [message_endpoint] returns a record for an accepted message, the [memory]
    of that record is, entry by entry, what the ten most recent entries of
    the log decode to, the log being taken at the time of the read, that is
    with the user record just pushed in front: it has ten entries when the
    log has ten or more, and as many as the log otherwise. A record is
    returned whenever the tool list is a list of tool descriptors and the
    entries read decode. *)
Theorem history_is_ten_most_recent (req : Request) (d : list (string * json))
    (message : json) (w : world) :
  req_json req = Return (JObj d) →
  lookup_field "message" d = Some message →
  truthy message = true →
  let key := "agent:" ++ AGENT_ID (module w) ++ ":messages" in
  let log :=
    dumps (JObj [("role", JStr "user"); ("content", message);
                 ("timestamp", JInt (int (wall (ticks w))))])
      :: Redis.list_at key (redis w) in
  (∀ response,
     fst (message_endpoint wall req w) = Return response →
     ∃ (content : string) (t_agent : Z) (history : list json),
       response = JObj [("role", JStr "agent"); ("content", JStr content);
                        ("timestamp", JInt t_agent); ("memory", JArr history)]
       ∧ length history = Nat.min 10 (length log)
       ∧ Forall2 (λ entry v, loads entry = Return v) (take 10 log) history)
  ∧ (well_typed_tools (agent_tools (module w)) = true →
     Forall (λ entry, ∃ v, loads entry = Return v)
       (take 9 (Redis.list_at key (redis w))) →
     ∃ response, fst (message_endpoint wall req w) = Return response).
Proof.
  intros Hbody Hmsg Htruthy. cbv zeta.
  change ("agent:" ++ AGENT_ID (module w) ++ ":messages")
    with (messages_key (module w)).
  split.
  - intros response.
    rewrite (message_endpoint_cases wall req d message w Hbody Hmsg Htruthy).
    unfold after_user_push at 1. cbn [redis].
    rewrite lrange_0_9, list_at_lpush.
    destruct (comprehension loads _) as [history | e] eqn:Hhistory;
      [| discriminate].
    destruct (response_content (module w) message) as [content | e];
      [| discriminate].
    cbn [fst]. intros [= <-].
    exists content, (int (wall (S (ticks w)))), history.
    split; [reflexivity |]. split.
    + apply comprehension_length in Hhistory. rewrite Hhistory.
      apply length_take.
    + apply comprehension_Forall2. exact Hhistory.
  - intros Htools Hlog.
    destruct (message_endpoint_run wall req d message w Hbody Hmsg Htruthy
                Htools Hlog) as (content & earlier & _ & _ & Hrun).
    rewrite Hrun. eexists. reflexivity.
Qed.

End MessageLog.

Lemma chatty_log :
  Redis.list_at ("agent:" ++ AGENT_ID (module Example.chatty) ++ ":messages")
    (redis Example.chatty)
  = map (λ i, dumps (Example.earlier_record i))
      [12; 11; 10; 9; 8; 7; 6; 5; 4; 3; 2; 1].
Proof. reflexivity. Qed.

Lemma chatty_log_decodes :
  Forall (λ entry, ∃ v, loads entry = Return v)
    (take 9 (Redis.list_at
               ("agent:" ++ AGENT_ID (module Example.chatty) ++ ":messages")
               (redis Example.chatty))).
Proof.
  rewrite chatty_log. cbn [take map].
  repeat (constructor; [eexists; apply test_loads_dumps |]). constructor.
Qed.



Lemma history_is_ten_most_recent_witness :
  ∃ (content : string) (t_agent : Z) (history : list json),
    fst (message_endpoint Example.wall Example.hi Example.chatty)
      = Return (JObj [("role", JStr "agent"); ("content", JStr content);
                      ("timestamp", JInt t_agent); ("memory", JArr history)])
    ∧ length history = 10%nat
    ∧ Forall2 (λ entry v, loads entry = Return v)
        (dumps (JObj [("role", JStr "user"); ("content", JStr "hi");
                      ("timestamp", JInt 1700)])
           :: map (λ i, dumps (Example.earlier_record i))
                [12; 11; 10; 9; 8; 7; 6; 5; 4])
        history.
Proof.
  destruct (history_is_ten_most_recent Example.wall Example.hi
              [("message", JStr "hi")] (JStr "hi") Example.chatty
              eq_refl eq_refl eq_refl) as [Hshape Hreturns].
  destruct (Hreturns eq_refl chatty_log_decodes) as [response Hresponse].
  destruct (Hshape response Hresponse)
    as (content & t_agent & history & Hrecord & Hlength & Hmemory).
  exists content, t_agent, history.
  split; [rewrite Hresponse, Hrecord; reflexivity |].
  split; [exact Hlength | exact Hmemory].
Defined.
